(** * holoviews/plotting/element.py: ElementPlot and OverlayPlot

    A shallow embedding of the element/overlay rendering pipeline:
    frame selection ([_get_frame]), extent computation ([get_extents]),
    title formatting ([_format_title]), axis finalization
    ([_finalize_axis] and its helpers) and legend aggregation
    ([_adjust_legend]).

    Python values are modelled as follows.
    - Exceptions are values of [exn]; a computation that may raise
      returns a [result].
    - Floats are IEEE binary64 ([PrimFloat.float]), as in CPython.
    - Keyword dictionaries and range dictionaries are [gmap]s.
    - The matplotlib axis is an external object: every call the
      renderer makes on it is recorded, in order, in a [trace]; what
      the axis answers to a query is given by the [Collaborators]
      interface as a function of the calls made so far. *)

From Stdlib Require Import ZArith NArith String Ascii List Bool Lia PrimFloat.
From stdpp Require Import base option list strings gmap.

Set Default Proof Using "Type".
#[local] Set Warnings "-inexact-float".

(** ** Exceptions and results *)

Inductive exn_class :=
| KeyError
| ValueError
| IndexError
| TypeError
| ZeroDivisionError
| OtherException (name : string)
    (** any other subclass of [Exception] *)
| SystemExiting (name : string)
    (** [SystemExit], [KeyboardInterrupt], [GeneratorExit]: subclasses of
        [BaseException] that are not subclasses of [Exception] *)
| Unmodelled (what : string).
    (** behaviour of a library call outside the modelled fragment *)

Record exn := Exn { exn_class_of : exn_class; exn_str : string }.

(** [isinstance(e, Exception)]: what [except Exception] matches. *)
Definition is_Exception (e : exn) : bool :=
  match exn_class_of e with
  | SystemExiting _ => false
  | _ => true
  end.

(** [isinstance(e, KeyError)]: what [except KeyError] matches. *)
Definition is_KeyError (e : exn) : bool :=
  match exn_class_of e with
  | KeyError => true
  | _ => false
  end.

Inductive result (A : Type) :=
| Return (a : A)
| Raise (e : exn).
Arguments Return {A} a.
Arguments Raise {A} e.

#[global] Instance result_ret : MRet result := @Return.
#[global] Instance result_bind : MBind result := λ A B f m,
  match m with
  | Return a => f a
  | Raise e => Raise e
  end.

Definition returns {A} (m : result A) : Prop := ∃ a, m = Return a.

(** ** Python sequences and strings *)

(** [l[i]] on a list or tuple: negative indices count from the end,
    anything out of range raises [IndexError]. *)
Definition py_index {A} (l : list A) (i : Z) : result A :=
  let n := Z.of_nat (length l) in
  let j := if (i <? 0)%Z then (i + n)%Z else i in
  if ((0 <=? j) && (j <? n))%Z then
    match l !! Z.to_nat j with
    | Some x => Return x
    | None => Raise (Exn IndexError "list index out of range")
    end
  else Raise (Exn IndexError "list index out of range").

(** [l.index(d)]: position of the first occurrence, [ValueError] when
    there is none. *)
Fixpoint list_index (d : string) (l : list string) : result nat :=
  match l with
  | [] => Raise (Exn ValueError (d +:+ " is not in list"))
  | x :: l' =>
      if String.eqb x d then Return 0
      else n ← list_index d l'; Return (S n)
  end.

(** [dict(pairs)]: a later pair overrides an earlier one with the same key. *)
Definition py_dict {V} (pairs : list (string * V)) : gmap string V :=
  fold_left (λ m kv, <[kv.1 := kv.2]> m) pairs ∅.

(** Code points on which [str.isspace] holds, read on the UTF-8 bytes of
    the string: U+0009..U+000D, U+001C..U+0020, U+0085, U+00A0, U+1680,
    U+2000..U+200A, U+2028, U+2029, U+202F, U+205F, U+3000. *)
Definition ascii_space (b : N) : bool :=
  ((9 <=? b) && (b <=? 13) || (28 <=? b) && (b <=? 32))%N.

Fixpoint all_space (bs : list N) : bool :=
  match bs with
  | [] => true
  | b :: rest =>
      if ascii_space b then all_space rest
      else
        match rest with
        | c :: rest1 =>
            if (b =? 194)%N then ((c =? 133) || (c =? 160))%N && all_space rest1
            else
              match rest1 with
              | d :: rest2 =>
                  (((b =? 225) && (c =? 154) && (d =? 128))
                   || ((b =? 226) && (c =? 128)
                       && (((128 <=? d) && (d <=? 138)) || (d =? 168)
                           || (d =? 169) || (d =? 175)))
                   || ((b =? 226) && (c =? 129) && (d =? 159))
                   || ((b =? 227) && (c =? 128) && (d =? 128)))%N
                  && all_space rest2
              | [] => false
              end
        | [] => false
        end
  end.

Definition bytes_of (s : string) : list N :=
  map N_of_ascii (list_ascii_of_string s).

(** [s.isspace()]: at least one character and all of them whitespace. *)
Definition isspace (s : string) : bool :=
  match s with
  | EmptyString => false
  | _ => all_space (bytes_of s)
  end.

(** Truth value of a string: [not s] holds for the empty string only. *)
Definition str_truthy (s : string) : bool :=
  match s with
  | EmptyString => false
  | _ => true
  end.

(** *** [str.format] with the keyword arguments [label], [group], [type]

    The fragment modelled: literal text, the escapes [{{] and [}}], and
    replacement fields that are a plain name.  A field with a conversion,
    a format specification or an attribute or index access is outside the
    fragment. *)

Record format_args := FormatArgs {
  fmt_label : string;
  fmt_group : string;
  fmt_type : string
}.

Definition is_digit (c : ascii) : bool :=
  let n := N_of_ascii c in ((48 <=? n) && (n <=? 57))%N.

Definition field_special (c : ascii) : bool :=
  existsb (Ascii.eqb c) ["{"; "."; "["; "!"; ":"]%char.

Definition lookup_field (args : format_args) (f : string) : result string :=
  let cs := list_ascii_of_string f in
  if existsb field_special cs then
    Raise (Exn (Unmodelled "str.format") f)
  else if forallb is_digit cs then
    Raise (Exn IndexError "tuple index out of range")
  else if String.eqb f "label" then Return (fmt_label args)
  else if String.eqb f "group" then Return (fmt_group args)
  else if String.eqb f "type" then Return (fmt_type args)
  else Raise (Exn KeyError f).

(** [field] is [Some name] while the scan is inside a replacement field. *)
Fixpoint format_scan (args : format_args) (s : string) (field : option string)
  : result string :=
  match s with
  | EmptyString =>
      match field with
      | None => Return EmptyString
      | Some _ => Raise (Exn ValueError "expected '}' before end of string")
      end
  | String c s' =>
      match field with
      | Some f =>
          if Ascii.eqb c "}" then
            v ← lookup_field args f;
            r ← format_scan args s' None;
            Return (v +:+ r)
          else format_scan args s' (Some (f +:+ String c EmptyString))
      | None =>
          if Ascii.eqb c "{" then
            match s' with
            | String c' s'' =>
                if Ascii.eqb c' "{" then
                  r ← format_scan args s'' None; Return (String "{" r)
                else format_scan args s' (Some EmptyString)
            | EmptyString =>
                Raise (Exn ValueError "Single '{' encountered in format string")
            end
          else if Ascii.eqb c "}" then
            match s' with
            | String c' s'' =>
                if Ascii.eqb c' "}" then
                  r ← format_scan args s'' None; Return (String "}" r)
                else
                  Raise (Exn ValueError "Single '}' encountered in format string")
            | EmptyString =>
                Raise (Exn ValueError "Single '}' encountered in format string")
            end
          else r ← format_scan args s' None; Return (String c r)
      end
  end.

Definition str_format (template : string) (args : format_args) : result string :=
  format_scan args template None.

(** ** Data model *)

(** A value of one dimension of a key. *)
Inductive dimval :=
| VInt (n : Z)
| VStr (s : string)
| VFloat (f : float)
| VNone.

(** An animation key as the caller passes it: a tuple, or a single value
    ([KeyAtom VNone] is [None]). *)
Inductive pykey :=
| KeyTuple (vs : list dimval)
| KeyAtom (v : dimval).

(** A bound of an extent or range: [None], the float object [np.NaN]
    itself (membership tests such as [np.NaN in (l, r)] go by identity,
    since a NaN is equal to nothing), or any other float. *)
Inductive coord :=
| CNone
| np_NaN
| CNum (f : float).

(** [np.isfinite] on a bound that is not [None]. *)
Definition np_isfinite (c : coord) : bool :=
  match c with
  | CNum f => is_finite f
  | _ => false
  end.

Definition is_None (c : coord) : bool :=
  match c with
  | CNone => true
  | _ => false
  end.

(** [a == b] on bounds. *)
Definition coord_eqb (a b : coord) : bool :=
  match a, b with
  | CNone, CNone => true
  | CNum x, CNum y => (x =? y)%float
  | _, _ => false
  end.

(** [np.NaN in (a, b)]: identity, then equality (which never holds). *)
Definition np_NaN_in (a b : coord) : bool :=
  match a, b with
  | np_NaN, _ => true
  | _, np_NaN => true
  | _, _ => false
  end.

(** Formatters, locators and handles are backend objects, known by name. *)
Definition formatter := string.

Inductive locator :=
| UserLocator (name : string)
| LogLocator (numticks : Z) (subs : list Z)
| MaxNLocator (n : Z).

Record dimension := Dimension {
  dim_name : string;
  dim_str : string;
    (** [str(dim)] *)
  dim_formatter : option formatter;
    (** [dim.formatter], [None] when falsy *)
  dim_type_formatter : option formatter
    (** [dim.type_formatters.get(dim.type)], [None] when falsy *)
}.

(** One frame: an element or an overlay of one animation step. *)
Record frame := Frame {
  type_name : string;
    (** [type(frame).__name__] *)
  group : string;
  label : string;
  frame_dimensions : list dimension;
    (** [frame.dimensions()] *)
  ndims : nat;
  is_CompositeOverlay : bool;
  is_Element3D : bool;
  extents : list coord;
  range : nat → result (coord * coord);
    (** [frame.range(i)] *)
  norm_framewise : bool
    (** [Store.lookup_options(frame, 'norm').options.get('framewise', False)] *)
}.

(** A HoloMap: the names of its key dimensions, its ordered data and the
    name of the type of its values. *)
Record holomap := HoloMap {
  key_dimensions : list string;
  data : list (list dimval * frame);
  map_type : string
}.

Definition values (m : holomap) : list frame := (data m).*2.

(** [m.last]: the last value, [None] when the map is empty. *)
Definition map_last (m : holomap) : option frame := last (values m).

(** What [HoloMap.select] returns. *)
Inductive selection :=
| SelNone
| SelFrame (f : frame)
| SelMap (m : holomap).

(** A legend handle: a backend artist, known by identity, or a falsy
    placeholder such as [False]. *)
Inductive handle :=
| Artist (id : nat)
| NoHandle.

(** A child renderer, as far as its parent looks into it. *)
Record subplot := Subplot {
  sp_map_type : string
    (** [sp.map.type.__name__] *)
}.

(** Keyword arguments of [axis.legend] that place the legend. *)
Record legend_spec := LegendSpec {
  bbox_to_anchor : option (list float);
  ncol : option Z;
  mode : option string;
  borderaxespad : option float
}.

Inductive aspect_value :=
| AspectNone
| AspectStr (s : string)
| AspectNum (a : float).
    (** a number; an integer counts as the float the division turns it into *)

(** The parameters and attributes of a renderer, hooks apart. *)
Record plot_opts := PlotOpts {
  uniform : bool;
  dimensions : option (list string);
    (** [[d.name for d in self.dimensions]], [None] when [self.dimensions] is *)
  map : holomap;
  zorder : Z;
  overlaid : Z;
  projection : option string;
  subplots : list subplot;
  layout_dimensions : bool;
    (** truth value of [self.layout_dimensions] *)
  title_format : string;
  apply_ranges : bool;
  apply_extents : bool;
  apply_ticks : bool;
  aspect : aspect_value;
  bgcolor : option string;
  hidden_labels : list string;
  invert_xaxis : bool;
  invert_yaxis : bool;
  logx : bool;
  logy : bool;
  logz : bool;
  show_legend : bool;
  show_grid : bool;
  show_title : bool;
  show_frame : bool;
  xaxis : option string;
  yaxis : option string;
  zaxis : bool;
  xticks : Z;
  xticker : option string;
  xrotation : Z;
  yticks : Z;
  yticker : option string;
  yrotation : Z;
  zrotation : Z;
  zticks : Z;
  zticker : option string
}.

Definition is_3d (self : plot_opts) : bool :=
  bool_decide (projection self = Some "3d").

(** ** The axis as a trace of calls *)

Inductive axis_name := XAxis | YAxis | ZAxis.

Definition kwargs := list (string * Z).

(** The calls this module makes on the axis and on objects hanging off it. *)
Inductive axis_call :=
| set_axis_bgcolor (c : string)
| set_major_formatter (a : axis_name) (f : formatter)
| legend_set_visible (b : bool)
| grid (a : axis_name) (b : bool)
| set_label (a : axis_name) (s : string) (kw : kwargs)
| set_aspect_num (v : float)
| set_aspect_str (s : string)
| set_lim (a : axis_name) (lo hi : coord)
| set_scale (a : axis_name) (s : string)
| invert_axis (a : axis_name)
| set_ticks_position (a : axis_name) (pos : string)
| set_label_position (a : axis_name) (pos : string)
| axis_set_visible (a : axis_name) (b : bool)
| spine_set_visible (pos : string) (b : bool)
| set_major_locator (a : axis_name) (l : locator)
| set_ticks (a : axis_name) (positions : list float)
| set_ticklabels (a : axis_name) (labels : list string)
| ticklabels_set_rotation (a : axis_name) (angle : Z)
| tick_params (kw : kwargs)
| set_title (s : string) (kw : kwargs)
| legend (handles : list handle) (labels : list string) (title : string)
    (scatterpoints : Z) (spec : legend_spec)
| legend_frame_set (property value : string).

(** What happened to the axis, oldest first: a call of the renderer's own
    code, the run of a finalize hook with the calls it made and the
    exception it raised, a run of foreign code of the base class, or a
    warning sent to the logger. *)
Inductive event :=
| Call (c : axis_call)
| HookRun (hook : string) (self : plot_opts) (view : option frame)
    (calls : list axis_call) (raised : option exn)
| Foreign (who : string) (calls : list axis_call)
| Warning (msg : string).

Definition trace := list event.

(** A finalize hook: a callable taking the renderer and the frame.  It may
    call the axis at will and may raise. *)
Record hook := Hook {
  hook_repr : string;
    (** [repr(hook)] *)
  hook_call : plot_opts → option frame → trace → list axis_call * option exn
}.

Record plot := Plot {
  opts :> plot_opts;
  finalize_hooks : list hook
}.

(** Explicit tick positions and labels passed to [_finalize_axis]. *)
Definition tick_spec := option (list float * list string).

(** ** Collaborators: code outside this module *)

Class Collaborators := {
  (** [holomap.select((HoloMap,), **kwargs)] *)
  select : holomap → gmap string dimval → result selection;
  (** [Plot._frame_title(key, group_size)] *)
  _frame_title : plot_opts → pykey → nat → option string;
  (** [Plot._subplot_label(axis)] *)
  _subplot_label : plot_opts → trace → list axis_call * option exn;
  (** [Plot._finalize_axis(key)], the base class method *)
  base_finalize_axis : plot_opts → pykey → trace → list axis_call * result string;
  (** [Plot._fontsize(key, label, common)] *)
  _fontsize : plot_opts → string → string → bool → kwargs;
  (** [axis.get_data_ratio()] after the given calls *)
  get_data_ratio : trace → float;
  (** whether [axis.get_legend()] is a legend after the given calls *)
  get_legend : trace → bool;
  (** [axis.get_legend_handles_labels()] after the given calls *)
  get_legend_handles_labels : trace → list handle * list string;
  (** [self.map.traverse(lambda x: x.extents, [Element])] *)
  traverse_extents : holomap → list (list coord);
  (** [util.max_extents(extent_list, zrange)] *)
  max_extents : list (list coord) → bool → list coord;
  (** [np.isreal] on a bound *)
  np_isreal : coord → bool
}.

(** ** ElementPlot: frame selection, extents, title *)

Section ElementPlot.
Context `{Collaborators}.

(** [key[i]] for a position [i] found by [list.index]. *)
Definition tuple_get (key : list dimval) (i : nat) : result dimval :=
  match key !! i with
  | Some v => Return v
  | None => Raise (Exn IndexError "tuple index out of range")
  end.

(** [{d: key[dimensions.index(d)] for d in key_dimensions}], the entries
    built so far in [acc]. *)
Fixpoint uniform_select (key_dims dims : list string) (key : list dimval)
    (acc : gmap string dimval) : result (gmap string dimval) :=
  match key_dims with
  | [] => Return acc
  | d :: ds =>
      i ← list_index d dims;
      v ← tuple_get key i;
      uniform_select ds dims key (<[d := v]> acc)
  end.

(** [if not isinstance(key, tuple): key = (key,)] *)
Definition as_tuple (key : pykey) : list dimval :=
  match key with
  | KeyTuple vs => vs
  | KeyAtom v => [v]
  end.

(** The items a key yields when [zip] iterates over it. *)
Definition iterate_key (key : pykey) : result (list dimval) :=
  match key with
  | KeyTuple vs => Return vs
  | KeyAtom (VStr s) =>
      Return ((λ c, VStr (String c EmptyString)) <$> list_ascii_of_string s)
  | KeyAtom _ => Raise (Exn TypeError "zip argument #2 must support iteration")
  end.

(** The [try]/[except KeyError] around [select], then [selection.last]
    when the selection is a HoloMap. *)
Definition select_frame (m : holomap) (sel : gmap string dimval)
  : result (option frame) :=
  match select m sel with
  | Raise e => if is_KeyError e then Return None else Raise e
  | Return (SelMap sm) => Return (map_last sm)
  | Return (SelFrame f) => Return (Some f)
  | Return SelNone => Return None
  end.

(** The selection dictionary [_get_frame] builds in uniform mode. *)
Definition uniform_selection (self : plot_opts) (key : pykey)
  : result (gmap string dimval) :=
  let key := as_tuple key in
  let key_dims := key_dimensions (map self) in
  let dims := default key_dims (dimensions self) in
  if bool_decide (key_dims = ["Frame"]) && negb (bool_decide (key_dims = dims))
  then Return {["Frame" := VInt 0]}
  else uniform_select key_dims dims key ∅.

(** How [_get_frame] looks the frame up: by position in the values of
    the map (the non-uniform integer key, which returns at once), or
    through [select] with the keyword arguments built from the key. *)
Inductive lookup :=
| Positional (i : Z)
| Select (kwargs : gmap string dimval).

Definition frame_lookup (self : plot_opts) (key : pykey) : result lookup :=
  if uniform self then
    sel ← uniform_selection self key;
    Return (Select sel)
  else
    match key with
    | KeyAtom (VInt k) =>
        Return (Positional (Z.min k (Z.of_nat (length (data (map self))) - 1)))
    | _ =>
        vs ← iterate_key key;
        Return (Select (py_dict (zip (key_dimensions (map self)) vs)))
    end.

Definition _get_frame (self : plot_opts) (key : pykey) : result (option frame) :=
  l ← frame_lookup self key;
  match l with
  | Positional i =>
      f ← py_index (values (map self)) i;
      Return (Some f)
  | Select sel => select_frame (map self) sel
  end.

(** *** [get_extents] *)

Definition num (self : plot_opts) : nat := if is_3d self then 6 else 4.

(** [ranges[dims[i].name]] *)
Definition lookup_range (view : frame) (ranges : gmap string (coord * coord))
    (i : Z) : result (coord * coord) :=
  d ← py_index (frame_dimensions view) i;
  match ranges !! dim_name d with
  | Some r => Return r
  | None => Raise (Exn KeyError (dim_name d))
  end.

(** The first half of [get_extents]: the bounds given by the ranges. *)
Definition range_extents (self : plot_opts) (view : frame)
    (ranges : gmap string (coord * coord)) : result (list coord) :=
  if apply_ranges self then
    if negb (Nat.eqb (size ranges) 0) then
      x ← lookup_range view ranges 0;
      y ← lookup_range view ranges 1;
      if is_3d self then
        z ← lookup_range view ranges 2;
        Return [x.1; y.1; z.1; x.2; y.2; z.2]
      else Return [x.1; y.1; x.2; y.2]
    else
      x ← range view 0;
      y ← range view 1;
      if is_3d self then
        z ← range view 2;
        Return [x.1; y.1; z.1; x.2; y.2; z.2]
      else Return [x.1; y.1; x.2; y.2]
  else Return (replicate (num self) np_NaN).

(** The second half: the bounds given by the extent overrides. *)
Definition extent_overrides (self : plot_opts) (view : frame) : list coord :=
  if apply_extents self then
    if norm_framewise view then extents view
    else max_extents (traverse_extents (map self)) (is_3d self)
  else replicate (num self) np_NaN.

(** [l1 if l2 is None or not np.isfinite(l2) else l2] *)
Definition prefer_extent (l1 l2 : coord) : coord :=
  if is_None l2 || negb (np_isfinite l2) then l1 else l2.

Definition get_extents (self : plot_opts) (view : frame)
    (ranges : gmap string (coord * coord)) : result (list coord) :=
  rs ← range_extents self view ranges;
  Return (zip_with prefer_extent rs (extent_overrides self view)).

(** *** [_format_title] *)

Definition newline : string := String (ascii_of_nat 10) EmptyString.

(** [not s or s.isspace()] for a string. *)
Definition blank (s : string) : bool := negb (str_truthy s) || isspace s.

(** The same test on a value that may be [None]. *)
Definition blank_opt (s : option string) : bool :=
  match s with
  | None => true
  | Some s => blank s
  end.

(** The last five lines of [_format_title]. *)
Definition combine_title (title : string) (dim_title : option string)
  : option string :=
  if blank title then dim_title
  else if blank_opt dim_title then Some title
  else Some (title +:+ newline +:+ default EmptyString dim_title).

(** [util.safe_unicode] leaves a text string as it is. *)
Definition safe_unicode (s : string) : string := s.

(** The part of the title that comes from the format template. *)
Definition title_text (self : plot_opts) (fr : frame) : result string :=
  let type_name := type_name fr in
  let group := if String.eqb (group fr) type_name then EmptyString else group fr in
  let label := label fr in
  if layout_dimensions self then Return EmptyString
  else str_format (safe_unicode (title_format self))
         (FormatArgs (safe_unicode label) (safe_unicode group) type_name).

Definition _format_title (self : plot_opts) (key : pykey) : result (option string) :=
  fr ← _get_frame self key;
  match fr with
  | None => Return None
  | Some fr =>
      title ← title_text self fr;
      let dim_title := _frame_title self key 2 in
      Return (combine_title title dim_title)
  end.

End ElementPlot.

(** ** Computations that call the axis

    A computation takes the calls made so far and either finishes or
    raises; in both cases the calls it made itself stay made. *)

Inductive outcome (A : Type) :=
| Done (a : A) (t : trace)
| Failed (e : exn) (t : trace).
Arguments Done {A} a t.
Arguments Failed {A} e t.

Definition M (A : Type) : Type := trace → outcome A.

#[global] Instance M_ret : MRet M := λ A a t, Done a t.
#[global] Instance M_bind : MBind M := λ A B f m t,
  match m t with
  | Done a t' => f a t'
  | Failed e t' => Failed e t'
  end.

Definition call (c : axis_call) : M unit := λ t, Done () (t ++ [Call c]).

Definition history : M trace := λ t, Done t t.

Definition lift {A} (r : result A) : M A := λ t,
  match r with
  | Return a => Done a t
  | Raise e => Failed e t
  end.

Definition when (b : bool) (m : M unit) : M unit :=
  if b then m else mret ().

(** A run of code of the base class that returns nothing. *)
Definition foreign (who : string) (run : trace → list axis_call * option exn)
  : M unit := λ t,
  let '(cs, r) := run t in
  match r with
  | None => Done () (t ++ [Foreign who cs])
  | Some e => Failed e (t ++ [Foreign who cs])
  end.

(** The trace a computation leaves, however it ends. *)
Definition trace_of {A} (o : outcome A) : trace :=
  match o with
  | Done _ t => t
  | Failed _ t => t
  end.

(** [1./x] and [x/a] on Python floats. *)
Definition py_div (x y : float) : result float :=
  if (y =? 0)%float then Raise (Exn ZeroDivisionError "float division by zero")
  else Return (x / y)%float.

(** Truth value of an optional string parameter such as [xaxis]. *)
Definition opt_truthy (s : option string) : bool :=
  match s with
  | Some s => str_truthy s
  | None => false
  end.

Definition opt_is (s : option string) (v : string) : bool :=
  match s with
  | Some s => String.eqb s v
  | None => false
  end.

Section AxisFinalizer.
Context `{Collaborators}.

Definition _axis_labels (self : plot_opts) (view : frame)
    (xlabel ylabel zlabel : option string)
  : option string * option string * option string :=
  let dims := frame_dimensions view in
  let dims := if is_CompositeOverlay view then drop (ndims view) dims else dims in
  let xlabel :=
    match dims !! 0, xlabel with
    | Some d, None => Some (dim_str d)
    | _, _ => xlabel
    end in
  let ylabel :=
    match dims !! 1, ylabel with
    | Some d, None => Some (dim_str d)
    | _, _ => ylabel
    end in
  let zlabel :=
    match is_3d self, dims !! 2, zlabel with
    | true, Some d, None => Some (dim_str d)
    | _, _, _ => zlabel
    end in
  (xlabel, ylabel, zlabel).

Definition _apply_aspect (self : plot_opts) : M unit :=
  if logx self || logy self then mret ()
  else
    match aspect self with
    | AspectNone => mret ()
    | AspectStr s =>
        if String.eqb s "square" then
          t ← history;
          sq ← lift (py_div 1 (get_data_ratio t));
          call (set_aspect_num sq)
        else call (set_aspect_str s)
    | AspectNum a =>
        t ← history;
        sq ← lift (py_div 1 (get_data_ratio t));
        v ← lift (py_div sq a);
        call (set_aspect_num v)
    end.

Definition unpack_error : exn := Exn ValueError "wrong number of values to unpack".

Definition set_lim_checked (a : axis_name) (lo hi : coord) : M unit :=
  when (negb (np_NaN_in lo hi) && negb (coord_eqb lo hi)) (call (set_lim a lo hi)).

Definition _finalize_limits (self : plot_opts) (view : frame)
    (ranges : gmap string (coord * coord)) : M unit :=
  extents ← lift (get_extents self view ranges);
  match extents with
  | [] => mret ()
  | _ =>
      if negb (Z.eqb (overlaid self) 0) then mret ()
      else
        let coords := (λ c, if np_isreal c then c else np_NaN) <$> extents in
        '(l, b, r, t) ←
          (if is_Element3D view || is_3d self then
             match coords with
             | [l; b; zmin; r; t; zmax] =>
                 set_lim_checked ZAxis zmin zmax;;
                 mret (l, b, r, t)
             | _ => lift (Raise unpack_error)
             end
           else
             match coords with
             | [l; b; r; t] => mret (l, b, r, t)
             | _ => lift (Raise unpack_error)
             end);
        set_lim_checked XAxis l r;;
        set_lim_checked YAxis b t
  end.

Definition _finalize_axes (self : plot_opts) : M unit :=
  (if logx self then call (set_scale XAxis "log")
   else if logy self then call (set_scale YAxis "log")
   else mret ());;
  when (invert_xaxis self) (call (invert_axis XAxis));;
  when (invert_yaxis self) (call (invert_axis YAxis)).

(** One of the three locator cascades of [_finalize_ticks]. *)
Definition major_locator (a : axis_name) (ticker : option string)
    (ticks : tick_spec) (log : bool) (n : Z) (otherwise : bool) : M unit :=
  match ticker, ticks with
  | Some l, _ => call (set_major_locator a (UserLocator l))
  | None, Some (positions, labels) =>
      call (set_ticks a positions);;
      call (set_ticklabels a labels)
  | None, None =>
      if log then call (set_major_locator a (LogLocator n (seqZ 1 9)))
      else when otherwise (call (set_major_locator a (MaxNLocator n)))
  end.

Definition hide_labels (self : plot_opts) (name : string) (a : axis_name) : M unit :=
  when (bool_decide (name ∈ hidden_labels self))
    (call (set_ticklabels a []);;
     call (set_ticks_position a "none");;
     call (set_label a EmptyString [])).

Definition _finalize_ticks (self : plot_opts) (xticks_ yticks_ zticks_ : tick_spec)
  : M unit :=
  when (negb (is_3d self))
    ((match xaxis self with
      | Some x =>
          if String.eqb x "top" then
            call (set_ticks_position XAxis "top");;
            call (set_label_position XAxis "top")
          else when (String.eqb x "bottom") (call (set_ticks_position XAxis "bottom"))
      | None => call (axis_set_visible XAxis false)
      end);;
     (match yaxis self with
      | Some y =>
          if String.eqb y "left" then call (set_ticks_position YAxis "left")
          else
            when (String.eqb y "right")
              (call (set_ticks_position YAxis "right");;
               call (set_label_position YAxis "right"))
      | None => call (axis_set_visible YAxis false)
      end);;
     when (bool_decide (xaxis self = None))
       (call (spine_set_visible "top" false);;
        call (spine_set_visible "bottom" false));;
     when (bool_decide (yaxis self = None))
       (call (spine_set_visible "left" false);;
        call (spine_set_visible "right" false)));;
  when (Z.eqb (overlaid self) 0 && negb (show_frame self)
        && negb (opt_is (projection self) "polar"))
    (call (spine_set_visible (if opt_is (yaxis self) "left" then "right" else "left") false);;
     call (spine_set_visible (if opt_is (xaxis self) "top" then "bottom" else "top") false));;
  major_locator XAxis (xticker self) xticks_ (logx self) (xticks self)
    (negb (Z.eqb (xticks self) 0));;
  call (ticklabels_set_rotation XAxis (xrotation self));;
  major_locator YAxis (yticker self) yticks_ (logy self) (yticks self)
    (negb (Z.eqb (yticks self) 0));;
  when (is_3d self)
    (major_locator ZAxis (zticker self) zticks_ (logz self) (zticks self) true;;
     call (ticklabels_set_rotation ZAxis (zrotation self)));;
  hide_labels self "x" XAxis;;
  hide_labels self "y" YAxis;;
  hide_labels self "z" ZAxis;;
  match _fontsize self "ticks" "labelsize" false with
  | [] => mret ()
  | kw => call (tick_params kw)
  end.

End AxisFinalizer.

(** ** [_finalize_axis] *)

Section FinalizeAxis.
Context `{Collaborators}.

(** [view.get_dimension(i)] for an integer [i] is [view.dimensions()[i]]. *)
Definition get_dimension (view : frame) (i : Z) : result dimension :=
  py_index (frame_dimensions view) i.

(** The formatter chosen for a dimension, if any. *)
Definition dim_format (d : dimension) : option formatter :=
  match dim_formatter d with
  | Some f => Some f
  | None => dim_type_formatter d
  end.

Definition set_formatter (a : axis_name) (d : dimension) : M unit :=
  match dim_format d with
  | Some f => call (set_major_formatter a f)
  | None => mret ()
  end.

(** [_suppressed = [Table, ItemTable]] *)
Definition _suppressed : list string := ["Table"; "ItemTable"].

Definition set_axis_label (a : axis_name) (lbl : option string) (shown : bool)
    (kw : kwargs) : M unit :=
  match lbl with
  | Some s => when (str_truthy s && shown) (call (set_label a s kw))
  | None => mret ()
  end.

(** The body of [if self.zorder == 0 and key is not None:]. *)
Definition decorate (self : plot_opts) (key : pykey) (view : option frame)
    (ranges : gmap string (coord * coord)) (xticks_ yticks_ zticks_ : tick_spec)
    (xlabel ylabel zlabel : option string) : M unit :=
  title ← lift (if (zorder self >? 0)%Z then Return None else _format_title self key);
  let suppress :=
    existsb (λ ty, bool_decide (ty ∈ _suppressed))
      (map_type (map self) :: (sp_map_type <$> subplots self)) in
  '(xlabel, ylabel, zlabel) ←
    match view with
    | Some view =>
        if negb suppress then
          let labels := _axis_labels self view xlabel ylabel zlabel in
          _finalize_limits self view ranges;;
          xdim ← lift (get_dimension view 0);
          ydim ← lift (get_dimension view 1);
          set_formatter XAxis xdim;;
          set_formatter YAxis ydim;;
          mret labels
        else mret (xlabel, ylabel, zlabel)
    | None => mret (xlabel, ylabel, zlabel)
    end;
  when (Z.eqb (zorder self) 0 && bool_decide (subplots self = []))
    (t ← history;
     when (get_legend t) (call (legend_set_visible (show_legend self)));;
     call (grid XAxis (show_grid self));;
     call (grid YAxis (show_grid self)));;
  set_axis_label XAxis xlabel (opt_truthy (xaxis self))
    (_fontsize self "xlabel" "fontsize" true);;
  set_axis_label YAxis ylabel (opt_truthy (yaxis self))
    (_fontsize self "ylabel" "fontsize" true);;
  set_axis_label ZAxis zlabel (zaxis self)
    (_fontsize self "ylabel" "fontsize" true);;
  _apply_aspect self;;
  foreign "_subplot_label" (_subplot_label self);;
  _finalize_axes self;;
  when (apply_ticks self) (_finalize_ticks self xticks_ yticks_ zticks_);;
  match title with
  | Some title =>
      when (show_title self)
        (call (set_title title (_fontsize self "title" "fontsize" true)))
  | None => mret ()
  end.

(** The text of the warning for a hook that raised. *)
Definition hook_warning (repr : string) (e : exn) : string :=
  "Plotting hook " +:+ repr +:+ " could not be applied:"
    +:+ newline +:+ newline +:+ " " +:+ exn_str e.

(** One turn of [for hook in self.finalize_hooks]: the call inside
    [try], and the [except Exception] clause. *)
Definition run_hook (self : plot_opts) (view : option frame) (h : hook) : M unit :=
  λ t,
  let '(cs, r) := hook_call h self view t in
  let t' := t ++ [HookRun (hook_repr h) self view cs r] in
  match r with
  | None => Done () t'
  | Some e =>
      if is_Exception e then Done () (t' ++ [Warning (hook_warning (hook_repr h) e)])
      else Failed e t'
  end.

Fixpoint run_hooks (self : plot_opts) (view : option frame) (hooks : list hook)
  : M unit :=
  match hooks with
  | [] => mret ()
  | h :: hooks' => run_hook self view h;; run_hooks self view hooks'
  end.

(** [super(ElementPlot, self)._finalize_axis(key)] *)
Definition super_finalize_axis (self : plot_opts) (key : pykey) : M string :=
  λ t,
  let '(cs, r) := base_finalize_axis self key t in
  match r with
  | Return a => Done a (t ++ [Foreign "Plot._finalize_axis" cs])
  | Raise e => Failed e (t ++ [Foreign "Plot._finalize_axis" cs])
  end.

Definition is_not_None (key : pykey) : bool :=
  match key with
  | KeyAtom VNone => false
  | _ => true
  end.

(** [_finalize_axis] up to the loop over the hooks: the background
    colour, the frame, and the decoration behind the z-order gate.  It
    yields the frame the hooks are called with. *)
Definition before_hooks (self : plot_opts) (key : pykey) (title : option string)
    (ranges : gmap string (coord * coord)) (xticks_ yticks_ zticks_ : tick_spec)
    (xlabel ylabel zlabel : option string) : M (option frame) :=
  match bgcolor self with
  | Some c => when (str_truthy c) (call (set_axis_bgcolor c))
  | None => mret ()
  end;;
  view ← lift (_get_frame self key);
  when (Z.eqb (zorder self) 0 && is_not_None key)
    (decorate self key view ranges xticks_ yticks_ zticks_ xlabel ylabel zlabel);;
  mret view.

Definition _finalize_axis (self : plot) (key : pykey) (title : option string)
    (ranges : gmap string (coord * coord)) (xticks_ yticks_ zticks_ : tick_spec)
    (xlabel ylabel zlabel : option string) : M string :=
  view ← before_hooks self key title ranges xticks_ yticks_ zticks_
           xlabel ylabel zlabel;
  run_hooks self view (finalize_hooks self);;
  super_finalize_axis self key.

End FinalizeAxis.

(** ** OverlayPlot: legend aggregation *)

(** [legend_specs] *)
Definition legend_specs (position : string) : result legend_spec :=
  if String.eqb position "inner" then
    Return (LegendSpec None None None None)
  else if String.eqb position "left" then
    Return (LegendSpec (Some [(-0.15)%float; 1%float]) None None None)
  else if String.eqb position "right" then
    Return (LegendSpec (Some [1.25%float; 1%float]) None None None)
  else if String.eqb position "top" then
    Return (LegendSpec (Some [0%float; 1.02%float; 1%float; 0.102%float])
              (Some 3%Z) (Some "expand") (Some 0%float))
  else if String.eqb position "bottom" then
    Return (LegendSpec (Some [0%float; (-0.25)%float; 1%float; 0.102%float])
              (Some 3%Z) (Some "expand") (Some 0.1%float))
  else Raise (Exn KeyError position).

(** Truth value of a handle. *)
Definition handle_truthy (h : handle) : bool :=
  match h with
  | Artist _ => true
  | NoHandle => false
  end.

Definition handle_eqb (a b : handle) : bool :=
  match a, b with
  | Artist i, Artist j => Nat.eqb i j
  | NoHandle, NoHandle => true
  | _, _ => false
  end.

(** An [OrderedDict] from handles to labels: pairs in insertion order. *)
Definition ordered_dict := list (handle * string).

(** [handle in data] *)
Definition od_mem (h : handle) (data : ordered_dict) : bool :=
  existsb (handle_eqb h) data.*1.

(** [data[handle] = label]: a new key goes to the end, a known key keeps
    its place. *)
Fixpoint od_set (h : handle) (l : string) (data : ordered_dict) : ordered_dict :=
  match data with
  | [] => [(h, l)]
  | (h', l') :: data' =>
      if handle_eqb h' h then (h', l) :: data'
      else (h', l') :: od_set h l data'
  end.

(** One turn of [for handle, label in zip(all_handles, all_labels)]. *)
Definition legend_step (data : ordered_dict) (hl : handle * string) : ordered_dict :=
  if handle_truthy hl.1 && negb (od_mem hl.1 data) && str_truthy hl.2
  then od_set hl.1 hl.2 data
  else data.

(** Lines 625 to 632 of [_adjust_legend]: [legend_data] holds the entries
    collected from the subplots, the other two lists are what
    [axis.get_legend_handles_labels()] returned. *)
Definition aggregate_legend (legend_data : list (handle * string))
    (autohandles : list handle) (autolabels : list string) : ordered_dict :=
  let legends :=
    match legend_data with
    | [] => ([], [])
    | _ => (legend_data.*1, legend_data.*2)
    end in
  let all_handles := legends.1 ++ autohandles in
  let all_labels := legends.2 ++ autolabels in
  fold_left legend_step (zip all_handles all_labels) [].

Section OverlayPlot.
Context `{Collaborators}.

(** [_adjust_legend] from line 625 on, given the [title] and
    [legend_data] the first part of the method computed.  It returns the
    dictionary stored as [handles['legend_data']]. *)
Definition _adjust_legend (self : plot_opts) (legend_position : string)
    (title : string) (legend_data : list (handle * string)) : M ordered_dict :=
  t ← history;
  let '(autohandles, autolabels) := get_legend_handles_labels t in
  let data := aggregate_legend legend_data autohandles autolabels in
  (if negb (1 <? length data)%nat || negb (show_legend self) then
     t ← history;
     when (get_legend t) (call (legend_set_visible false))
   else
     leg_spec ← lift (legend_specs legend_position);
     call (legend data.*1 data.*2 title 1 leg_spec);;
     call (legend_frame_set "facecolor" "1.0");;
     call (legend_frame_set "edgecolor" "0.0");;
     call (legend_frame_set "linewidth" "1.0"));;
  mret data.

End OverlayPlot.

(** ** Observations on traces *)

Definition axis_name_eqb (a b : axis_name) : bool :=
  match a, b with
  | XAxis, XAxis | YAxis, YAxis | ZAxis, ZAxis => true
  | _, _ => false
  end.

(** The scales set on one axis, in the order of the calls. *)
Definition scale_calls (a : axis_name) (t : trace) : list string :=
  omap (λ e, match e with
             | Call (set_scale a' s) => if axis_name_eqb a a' then Some s else None
             | _ => None
             end) t.

(** The calls of the renderer's own code in a trace. *)
Definition own_calls (t : trace) : list axis_call :=
  omap (λ e, match e with Call c => Some c | _ => None end) t.

(** The calls that touch the cosmetic state of the axis: title, labels,
    grid, legend, limits, aspect, scales, ticks and spines; that is,
    every call but the one that sets the background colour. *)
Definition cosmetic (c : axis_call) : bool :=
  match c with
  | set_axis_bgcolor _ => false
  | _ => true
  end.

(** The calls [if self.bgcolor: axis.set_axis_bgcolor(self.bgcolor)] makes. *)
Definition bgcolor_calls (self : plot_opts) : list axis_call :=
  match bgcolor self with
  | Some c => if str_truthy c then [set_axis_bgcolor c] else []
  | None => []
  end.

(** The hooks run in a trace, each with the renderer and the frame it got. *)
Definition hook_runs (t : trace) : list (string * plot_opts * option frame) :=
  omap (λ e, match e with
             | HookRun h s v _ _ => Some (h, s, v)
             | _ => None
             end) t.

Definition warnings (t : trace) : list string :=
  omap (λ e, match e with Warning m => Some m | _ => None end) t.

(** One warning for each hook run that raised. *)
Definition expected_warnings (t : trace) : list string :=
  omap (λ ev, match ev with
              | HookRun h _ _ _ (Some e) => Some (hook_warning h e)
              | _ => None
              end) t.

(** ** Legend aggregation, as specified *)

(** An entry counts when its handle is truthy and its label not empty. *)
Definition valid_entry (hl : handle * string) : bool :=
  handle_truthy hl.1 && str_truthy hl.2.

(** The aggregation in the words of the specification: go through the
    entries in order and keep an entry unless its handle was kept before. *)
Fixpoint dedup_first (seen : list handle) (entries : list (handle * string))
  : list (handle * string) :=
  match entries with
  | [] => []
  | hl :: rest =>
      if existsb (handle_eqb hl.1) seen then dedup_first seen rest
      else hl :: dedup_first (seen ++ [hl.1]) rest
  end.

(** ** Sample values

    A renderer with the default parameter values of the class, a few
    frames, and stand-ins for the collaborators. *)

Definition unit_range : nat → result (coord * coord) :=
  λ _, Return (CNum 0, CNum 1).

Definition xy_dims : list dimension :=
  [Dimension "x" "x" None None; Dimension "y" "y" None None].

(** A curve with the given group and label and no extent override. *)
Definition curve (grp lbl : string) : frame :=
  Frame "Curve" grp lbl xy_dims 1 false false [CNone; CNone; CNone; CNone]
    unit_range false.

Definition sample_map (key_dims : list string)
    (items : list (list dimval * frame)) : holomap :=
  HoloMap key_dims items "Curve".

(** The instance [ElementPlot(element, dimensions=.., zorder=..,
    uniform=..)] with the defaults of the class for every parameter but
    the listed ones. *)
Definition element_plot (m : holomap) (dims : option (list string))
    (uniform_ : bool) (zorder_ : Z) (aspect_ : aspect_value)
    (logx_ logy_ apply_ranges_ : bool) : plot_opts :=
  {| uniform := uniform_; dimensions := dims; map := m; zorder := zorder_;
     overlaid := 0; projection := None; subplots := [];
     layout_dimensions := false; title_format := "{label} {group}";
     apply_ranges := apply_ranges_; apply_extents := true; apply_ticks := true;
     aspect := aspect_; bgcolor := None; hidden_labels := [];
     invert_xaxis := false; invert_yaxis := false;
     logx := logx_; logy := logy_; logz := false;
     show_legend := false; show_grid := false; show_title := true;
     show_frame := true;
     xaxis := Some "bottom"; yaxis := Some "left"; zaxis := true;
     xticks := 5; xticker := None; xrotation := 0;
     yticks := 5; yticker := None; yrotation := 0;
     zrotation := 0; zticks := 5; zticker := None |}.

Definition dimval_eqb (a b : dimval) : bool :=
  match a, b with
  | VInt x, VInt y => Z.eqb x y
  | VStr x, VStr y => String.eqb x y
  | VFloat x, VFloat y => (x =? y)%float
  | VNone, VNone => true
  | _, _ => false
  end.

(** A stand-in for [HoloMap.select]: keep the items whose key agrees with
    every keyword given; no item left is a [KeyError], a single item under
    a full key is that frame, anything else is the HoloMap of the items. *)
Definition key_matches (key_dims : list string) (sel : gmap string dimval)
    (key : list dimval) : bool :=
  forallb (λ dv, match sel !! dv.1 with
                 | Some v => dimval_eqb v dv.2
                 | None => true
                 end) (zip key_dims key).

Definition sample_select (m : holomap) (sel : gmap string dimval) : result selection :=
  let items := filter (λ kv, key_matches (key_dimensions m) sel kv.1 = true) (data m) in
  match items with
  | [] => Raise (Exn KeyError "key not found")
  | [(_, f)] =>
      if forallb (λ d, bool_decide (is_Some (sel !! d))) (key_dimensions m)
      then Return (SelFrame f)
      else Return (SelMap (HoloMap (key_dimensions m) items (map_type m)))
  | _ => Return (SelMap (HoloMap (key_dimensions m) items (map_type m)))
  end.


Definition sample_collaborators
    (sel : holomap → gmap string dimval → result selection)
    (dim_title : option string) (ratio : float) : Collaborators :=
  {| select := sel;
     _frame_title := λ _ _ _, dim_title;
     _subplot_label := λ _ _, ([], None);
     base_finalize_axis := λ _ _ _, ([], Return "fig");
     _fontsize := λ _ _ _ _, [];
     get_data_ratio := λ _, ratio;
     get_legend := λ _, false;
     get_legend_handles_labels := λ _, ([], []);
     traverse_extents := λ m, extents <$> values m;
     max_extents := λ _ zrange, replicate (if zrange then 6 else 4) np_NaN;
     np_isreal := λ _, true |}.

(** Five frames under the keys 0 to 4 of one dimension. *)
Definition five_frames : holomap :=
  sample_map ["t"]
    [([VInt 0], curve "Curve" "f0"); ([VInt 1], curve "Curve" "f1");
     ([VInt 2], curve "Curve" "f2"); ([VInt 3], curve "Curve" "f3");
     ([VInt 4], curve "Curve" "f4")].

Definition nonuniform_plot : plot_opts :=
  element_plot five_frames None false 0 (AspectStr "square") false false true.

Definition uniform_plot (dims : option (list string)) : plot_opts :=
  element_plot five_frames dims true 0 (AspectStr "square") false false true.

(** A frame whose own extents fix the left and the upper bound. *)
Definition framewise_curve : frame :=
  Frame "Curve" "Curve" "f" xy_dims 1 false false
    [CNum (-3); CNone; CNum infinity; CNum 2] unit_range true.


Definition square_plot (aspect_ : aspect_value) (logx_ logy_ : bool) : plot_opts :=
  element_plot five_frames None true 0 aspect_ logx_ logy_ true.

(** A hook that sets a title of its own and then fails. *)
Definition failing_hook : hook :=
  Hook "<function bad_hook>"
    (λ _ _ _, ([set_title "mine" []], Some (Exn ValueError "bad value"))).

(** A hook that turns the grid on. *)
Definition grid_hook : hook :=
  Hook "<function grid_hook>" (λ _ _ _, ([grid XAxis true], None)).

Definition hooked_plot (zorder_ : Z) : plot :=
  Plot (element_plot five_frames None true zorder_ (AspectStr "square")
          false false true)
       [failing_hook; grid_hook].

(** ** Frame selection *)

Section FrameSelection.
Context `{Collaborators}.





(** C3: when the keyword arguments built from the key reach [select] and
    [select] raises a [KeyError] (key not found), [_get_frame] returns
    [None] instead of raising; when [select] returns a HoloMap,
    [_get_frame] returns the last entry of that HoloMap; any other
    selection result is returned as it is. *)
Theorem get_frame_lenient (self : plot_opts) (key : pykey)
    (sel : gmap string dimval) :
  frame_lookup self key = Return (Select sel) →
  (∀ e, select (map self) sel = Raise e → is_KeyError e = true →
        _get_frame self key = Return None)
  ∧ (∀ m, select (map self) sel = Return (SelMap m) →
          _get_frame self key = Return (last (values m)))
  ∧ (∀ f, select (map self) sel = Return (SelFrame f) →
          _get_frame self key = Return (Some f))
  ∧ (select (map self) sel = Return SelNone →
     _get_frame self key = Return None).
Proof.
  intros Hl. unfold _get_frame, select_frame. rewrite Hl. simpl.
  repeat split.
  - intros e -> He. by rewrite He.
  - by intros m ->.
  - by intros f ->.
  - by intros ->.
Qed.

(** C5 (amended): in non-uniform mode, on a sequence that is not empty
    and for an integer key not below minus its length, [_get_frame]
    returns the frame at Python index [min(key, length-1)]: position
    [min(key, length-1)] for a key that is not negative, position
    [length+key] for a negative one. *)
Theorem get_frame_nonuniform_int (self : plot_opts) (k : Z) :
  let n := Z.of_nat (length (data (map self))) in
  uniform self = false →
  (0 < n)%Z →
  (- n ≤ k)%Z →
  ∃ f, _get_frame self (KeyAtom (VInt k)) = Return (Some f)
       ∧ values (map self)
           !! Z.to_nat (if (k <? 0)%Z then n + k else Z.min k (n - 1))%Z
         = Some f.
Proof.
  intros n Hu Hn Hk. unfold _get_frame, frame_lookup. rewrite Hu. simpl.
  fold n. unfold py_index.
  assert (length (values (map self)) = length (data (map self))) as Hlen
    by (unfold values; by rewrite length_fmap).
  rewrite Hlen. fold n.
  set (i := Z.min k (n - 1)).
  set (j := if (i <? 0)%Z then (i + n)%Z else i).
  assert (j = if (k <? 0)%Z then n + k else i)%Z as Hj.
  { subst j. destruct (Z.ltb_spec k 0), (Z.ltb_spec i 0); lia. }
  assert (0 ≤ j < n)%Z as Hrange.
  { rewrite Hj. destruct (Z.ltb_spec k 0); lia. }
  assert (((0 <=? j) && (j <? n))%Z = true) as ->.
  { apply andb_true_iff. split; [apply Z.leb_le | apply Z.ltb_lt]; lia. }
  rewrite <- Hj.
  destruct (values (map self) !! Z.to_nat j) as [f|] eqn:E.
  - exists f. by simpl.
  - apply lookup_ge_None in E. lia.
Qed.


End FrameSelection.

(** The clamp at key 99 on five frames: the frame at index 4. *)
Lemma get_frame_nonuniform_int_witness :
  ∃ f, @_get_frame (sample_collaborators sample_select None 1) nonuniform_plot
         (KeyAtom (VInt 99)) = Return (Some f)
       ∧ values five_frames !! 4%nat = Some f.
Proof.
  apply (@get_frame_nonuniform_int (sample_collaborators sample_select None 1)
           nonuniform_plot 99); [reflexivity | reflexivity | discriminate].
Defined.

(** Without the lower bound on the key the property fails: key -6 on
    five frames raises [IndexError] and no frame is returned. *)
Lemma get_frame_nonuniform_int_counterexample :
  @_get_frame (sample_collaborators sample_select None 1) nonuniform_plot
    (KeyAtom (VInt (-6)))
  = Raise (Exn IndexError "list index out of range")
  ∧ ¬ ∃ f, @_get_frame (sample_collaborators sample_select None 1) nonuniform_plot
             (KeyAtom (VInt (-6))) = Return (Some f).
Proof.
  split; [reflexivity | intros [f Hf]; discriminate Hf].
Defined.

(** Key 7 is not among the five keys: the selection yields [None]. *)
Lemma get_frame_lenient_witness :
  @_get_frame (sample_collaborators sample_select None 1) (uniform_plot None)
    (KeyAtom (VInt 7)) = Return None.
Proof.
  refine (proj1 (@get_frame_lenient (sample_collaborators sample_select None 1)
                   (uniform_plot None) (KeyAtom (VInt 7)) {["t" := VInt 7]} _)
            (Exn KeyError "key not found") _ _); reflexivity.
Defined.


(** ** Extents *)

Section Extents.
Context `{Collaborators}.

Lemma range_extents_length (self : plot_opts) (view : frame)
    (ranges : gmap string (coord * coord)) (rs : list coord) :
  range_extents self view ranges = Return rs → length rs = num self.
Proof.
  unfold range_extents, num.
  destruct (apply_ranges self).
  - destruct (negb _).
    + destruct (lookup_range view ranges 0) as [x|]; [simpl|done].
      destruct (lookup_range view ranges 1) as [y|]; [simpl|done].
      destruct (is_3d self).
      * destruct (lookup_range view ranges 2) as [z|]; [simpl|done].
        by intros [= <-].
      * by intros [= <-].
    + destruct (range view 0) as [x|]; [simpl|done].
      destruct (range view 1) as [y|]; [simpl|done].
      destruct (is_3d self).
      * destruct (range view 2) as [z|]; [simpl|done].
        by intros [= <-].
      * by intros [= <-].
  - intros [= <-]. by rewrite length_replicate.
Qed.

(** A bound is preferred exactly when it is a finite float. *)
Lemma prefer_extent_finite (r e : coord) :
  prefer_extent r e = if np_isfinite e then e else r.
Proof. by destruct e as [| |f]; unfold prefer_extent; simpl; [..|destruct (is_finite f)]. Qed.

Lemma get_extents_lookup (rs es : list coord) (n i : nat) :
  length rs = n → length es = n → (i < n)%nat →
  ∃ r e, rs !! i = Some r ∧ es !! i = Some e
         ∧ zip_with prefer_extent rs es !! i = Some (if np_isfinite e then e else r).
Proof.
  intros Hr He Hi.
  destruct (lookup_lt_is_Some_2 rs i) as [r Hri]; [lia|].
  destruct (lookup_lt_is_Some_2 es i) as [e Hei]; [lia|].
  exists r, e. repeat split; [done..|].
  rewrite lookup_zip_with, Hri, Hei. simpl. by rewrite prefer_extent_finite.
Qed.

(** C2: [get_extents] works component by component on tuples of [num]
    components (4 in 2D, 6 in 3D).  Whenever the extent overrides have
    that many components and the range half yields its bounds, the
    result has [num] components and each one is the override when that
    is a finite float (so neither [None], NaN nor infinite) and the
    range-derived bound otherwise; when [apply_ranges] is false every
    range-derived bound is NaN, so that the result is the finite
    override or else NaN. *)
Theorem get_extents_componentwise (self : plot_opts) (view : frame)
    (ranges : gmap string (coord * coord)) :
  length (extent_overrides self view) = num self →
  (num self = if is_3d self then 6%nat else 4%nat)
  ∧ (∀ rs, range_extents self view ranges = Return rs →
       ∃ res, get_extents self view ranges = Return res
              ∧ length res = num self
              ∧ ∀ i, (i < num self)%nat →
                  ∃ r e, rs !! i = Some r
                         ∧ extent_overrides self view !! i = Some e
                         ∧ res !! i = Some (if np_isfinite e then e else r))
  ∧ (apply_ranges self = false →
       range_extents self view ranges = Return (replicate (num self) np_NaN)
       ∧ ∃ res, get_extents self view ranges = Return res
                ∧ ∀ i, (i < num self)%nat →
                    ∃ e, extent_overrides self view !! i = Some e
                         ∧ res !! i = Some (if np_isfinite e then e else np_NaN)).
Proof.
  intros He. split; [done|]. split.
  - intros rs Hrs. pose proof (range_extents_length _ _ _ _ Hrs) as Hr.
    exists (zip_with prefer_extent rs (extent_overrides self view)).
    unfold get_extents. rewrite Hrs. simpl. split; [done|]. split.
    + rewrite length_zip_with. lia.
    + intros i Hi. by apply (get_extents_lookup _ _ (num self)).
  - intros Ha.
    assert (range_extents self view ranges = Return (replicate (num self) np_NaN))
      as Hrs by (unfold range_extents; by rewrite Ha).
    split; [done|].
    exists (zip_with prefer_extent (replicate (num self) np_NaN)
              (extent_overrides self view)).
    unfold get_extents. rewrite Hrs. simpl. split; [done|].
    intros i Hi.
    destruct (get_extents_lookup (replicate (num self) np_NaN)
                (extent_overrides self view) (num self) i)
      as (r & e & Hri & Hei & Hres); [by rewrite length_replicate|done|done|].
    apply lookup_replicate in Hri as [-> _]. by exists e.
Qed.

End Extents.

Lemma get_extents_componentwise_witness :
  ∃ res, @get_extents (sample_collaborators sample_select None 1)
           nonuniform_plot framewise_curve ∅ = Return res
         ∧ length res = 4%nat
         ∧ ∀ i, (i < 4)%nat →
             ∃ r e, [CNum 0; CNum 0; CNum 1; CNum 1] !! i = Some r
                    ∧ [CNum (-3); CNone; CNum infinity; CNum 2] !! i = Some e
                    ∧ res !! i = Some (if np_isfinite e then e else r).
Proof.
  refine (proj1 (proj2 (@get_extents_componentwise
                          (sample_collaborators sample_select None 1)
                          nonuniform_plot framewise_curve ∅ _))
            [CNum 0; CNum 0; CNum 1; CNum 1] _); reflexivity.
Defined.

(** ** Title *)

Lemma append_empty_r (s : string) : s +:+ EmptyString = s.
Proof. induction s as [|c s IH]; [done | by rewrite <- IH at 2]. Qed.

(** The default template puts the label, a space and the group. *)
Lemma str_format_label_group (args : format_args) :
  str_format "{label} {group}" args
  = Return (fmt_label args +:+ " " +:+ fmt_group args).
Proof. unfold str_format. simpl. by rewrite append_empty_r. Qed.

Lemma str_format_type (args : format_args) :
  str_format "{type}" args = Return (fmt_type args).
Proof. unfold str_format. simpl. by rewrite append_empty_r. Qed.

Section Title.
Context `{Collaborators}.


(** No frame, no title. *)
Lemma format_title_no_frame (self : plot_opts) (key : pykey) :
  _get_frame self key = Return None → _format_title self key = Return None.
Proof. intros Hf. unfold _format_title. by rewrite Hf. Qed.

End Title.



(** ** Aspect and scales *)

(** Unfold the plumbing of [M] down to the traces. *)
Ltac run_M :=
  unfold mbind, M_bind, mret, M_ret, history, lift, call, when; cbn.

Section AspectAndScales.
Context `{Collaborators}.

(** C7: with [logx] or [logy] set, [_apply_aspect] calls nothing; for
    ['square'] it sets the aspect to [1/data_ratio]; for a number [a] to
    [(1/data_ratio)/a]; any other string is handed to [set_aspect] as it
    is.  The divisions are those of Python floats, so the data ratio and
    [a] are taken to be non-zero. *)
Theorem apply_aspect_policy (self : plot_opts) (t : trace) :
  let ratio := get_data_ratio t in
  (logx self || logy self = true → _apply_aspect self t = Done () t)
  ∧ (logx self || logy self = false →
     (aspect self = AspectStr "square" → (ratio =? 0)%float = false →
      _apply_aspect self t = Done () (t ++ [Call (set_aspect_num (1 / ratio))]))
     ∧ (∀ a, aspect self = AspectNum a →
             (ratio =? 0)%float = false → (a =? 0)%float = false →
             _apply_aspect self t
             = Done () (t ++ [Call (set_aspect_num (1 / ratio / a))]))
     ∧ (∀ s, aspect self = AspectStr s → s ≠ "square" →
             _apply_aspect self t = Done () (t ++ [Call (set_aspect_str s)]))).
Proof.
  intros ratio. unfold _apply_aspect. split.
  - by intros ->.
  - intros ->. split; [|split].
    + intros -> Hr. cbn. run_M. unfold py_div. fold ratio. by rewrite Hr.
    + intros a -> Hr Ha. run_M. unfold py_div. fold ratio. rewrite Hr. cbn.
      by rewrite Ha.
    + intros s -> Hs. by rewrite (proj2 (String.eqb_neq s "square") Hs).
Qed.

Lemma scale_calls_app (a : axis_name) (t1 t2 : trace) :
  scale_calls a (t1 ++ t2) = scale_calls a t1 ++ scale_calls a t2.
Proof. apply omap_app. Qed.

(** C9: the two log flags share one [if]/[elif].  With [logx] set (and
    whatever [logy] is) [_finalize_axes] sets the x scale to log and sets
    no y scale at all; [logy] sets the y scale to log only when [logx] is
    false. *)
Theorem finalize_axes_log_exclusive (self : plot_opts) (t : trace) :
  ∃ t', _finalize_axes self t = Done () t'
        ∧ (logx self = true →
           scale_calls XAxis t' = scale_calls XAxis t ++ ["log"]
           ∧ scale_calls YAxis t' = scale_calls YAxis t)
        ∧ (logx self = false → logy self = true →
           scale_calls YAxis t' = scale_calls YAxis t ++ ["log"]
           ∧ scale_calls XAxis t' = scale_calls XAxis t)
        ∧ (logx self = false → logy self = false →
           scale_calls YAxis t' = scale_calls YAxis t
           ∧ scale_calls XAxis t' = scale_calls XAxis t).
Proof.
  unfold _finalize_axes.
  destruct (logx self), (logy self), (invert_xaxis self), (invert_yaxis self);
    run_M; eexists; (split; [reflexivity|]);
    repeat split; intros; try discriminate;
    rewrite ?scale_calls_app; cbn; by rewrite ?app_nil_r.
Qed.

End AspectAndScales.

(** Data ratio 0.5: ['square'] gives the aspect 2.0 and the number 4
    gives 0.5; under a log axis nothing is set. *)
Lemma apply_aspect_policy_witness :
  @_apply_aspect (sample_collaborators sample_select None 0.5)
    (square_plot (AspectStr "square") false false) []
  = Done () [Call (set_aspect_num 2)]
  ∧ @_apply_aspect (sample_collaborators sample_select None 0.5)
      (square_plot (AspectNum 4) false false) []
    = Done () [Call (set_aspect_num 0.5)]
  ∧ @_apply_aspect (sample_collaborators sample_select None 0.5)
      (square_plot (AspectStr "equal") false false) []
    = Done () [Call (set_aspect_str "equal")]
  ∧ @_apply_aspect (sample_collaborators sample_select None 0.5)
      (square_plot (AspectStr "square") true false) []
    = Done () [].
Proof.
  split; [|split; [|split]].
  - refine (proj1 (proj2 (@apply_aspect_policy
             (sample_collaborators sample_select None 0.5)
             (square_plot (AspectStr "square") false false) []) _) _ _);
      reflexivity.
  - refine (proj1 (proj2 (proj2 (@apply_aspect_policy
             (sample_collaborators sample_select None 0.5)
             (square_plot (AspectNum 4) false false) []) _)) 4%float _ _ _);
      reflexivity.
  - refine (proj2 (proj2 (proj2 (@apply_aspect_policy
             (sample_collaborators sample_select None 0.5)
             (square_plot (AspectStr "equal") false false) []) _)) "equal" _ _);
      [reflexivity | reflexivity | discriminate].
  - refine (proj1 (@apply_aspect_policy
             (sample_collaborators sample_select None 0.5)
             (square_plot (AspectStr "square") true false) []) _);
      reflexivity.
Defined.

(** Both flags set: the x scale becomes log, the y scale is not touched. *)
Lemma finalize_axes_log_exclusive_witness :
  ∃ t', _finalize_axes (square_plot (AspectStr "square") true true) [] = Done () t'
        ∧ scale_calls XAxis t' = ["log"]
        ∧ scale_calls YAxis t' = [].
Proof.
  destruct (finalize_axes_log_exclusive
              (square_plot (AspectStr "square") true true) [])
    as (t' & Ht & Hx & _).
  exists t'. split; [exact Ht | exact (Hx eq_refl)].
Defined.

(** ** Finalize hooks and the z-order gate *)

Section Hooks.
Context `{Collaborators}.

Lemma run_hook_done (self : plot_opts) (view : option frame) (h : hook) (t : trace) :
  (∀ cs e, hook_call h self view t = (cs, Some e) → is_Exception e = true) →
  ∃ cs r, hook_call h self view t = (cs, r)
          ∧ run_hook self view h t
            = Done () (t ++ HookRun (hook_repr h) self view cs r
                         :: match r with
                            | Some e => [Warning (hook_warning (hook_repr h) e)]
                            | None => []
                            end).
Proof.
  intros Hc. unfold run_hook.
  destruct (hook_call h self view t) as [cs [e|]] eqn:E; exists cs; eexists;
    (split; [reflexivity|]).
  - rewrite (Hc cs e eq_refl). by rewrite <- app_assoc.
  - done.
Qed.

Lemma run_hooks_done (self : plot_opts) (view : option frame) (hooks : list hook)
    (t : trace) :
  (∀ h, h ∈ hooks → ∀ t0 cs e,
     hook_call h self view t0 = (cs, Some e) → is_Exception e = true) →
  ∃ evs, run_hooks self view hooks t = Done () (t ++ evs)
         ∧ hook_runs evs = (λ h, (hook_repr h, self, view)) <$> hooks
         ∧ warnings evs = expected_warnings evs.
Proof.
  revert t. induction hooks as [|h hooks IH]; intros t Hc.
  - exists []. by rewrite app_nil_r.
  - destruct (run_hook_done self view h t) as (cs & r & _ & Hh).
    { intros cs e. apply Hc, elem_of_cons. by left. }
    destruct (IH (t ++ HookRun (hook_repr h) self view cs r
                    :: match r with
                       | Some e => [Warning (hook_warning (hook_repr h) e)]
                       | None => []
                       end)) as (evs & Hrun & Hruns & Hw).
    { intros h' Hin. apply Hc, elem_of_cons. by right. }
    eexists. split; [|split].
    + cbn. unfold mbind, M_bind. rewrite Hh, Hrun, <- app_assoc. reflexivity.
    + unfold hook_runs in *. destruct r; cbn; by rewrite Hruns.
    + unfold warnings, expected_warnings in *. destruct r; cbn; by rewrite Hw.
Qed.

(** C4: every registered finalize hook is called, in order, with the
    renderer and the frame; a hook that raises an [Exception] leaves a
    warning and nothing else, the hooks after it still run, and the loop
    ends normally, so that [_finalize_axis] goes on to the base class
    and returns what that returns. *)
Theorem finalize_hooks_isolated (self : plot) (view : option frame) (t : trace) :
  (∀ h, h ∈ finalize_hooks self → ∀ t0 cs e,
     hook_call h self view t0 = (cs, Some e) → is_Exception e = true) →
  ∃ evs, run_hooks self view (finalize_hooks self) t = Done () (t ++ evs)
         ∧ hook_runs evs
           = (λ h, (hook_repr h, opts self, view)) <$> finalize_hooks self
         ∧ warnings evs = expected_warnings evs
         ∧ ∀ key title ranges xt yt zt xl yl zl t0,
             before_hooks self key title ranges xt yt zt xl yl zl t0 = Done view t →
             _finalize_axis self key title ranges xt yt zt xl yl zl t0
             = super_finalize_axis self key (t ++ evs)
             ∧ ∀ cs r, base_finalize_axis self key (t ++ evs) = (cs, Return r) →
                 _finalize_axis self key title ranges xt yt zt xl yl zl t0
                 = Done r (t ++ evs ++ [Foreign "Plot._finalize_axis" cs]).
Proof.
  intros Hc.
  destruct (run_hooks_done self view (finalize_hooks self) t Hc)
    as (evs & Hrun & Hruns & Hw).
  exists evs. split; [done|]. split; [done|]. split; [done|].
  intros key title ranges xt yt zt xl yl zl t0 Hbefore.
  assert (_finalize_axis self key title ranges xt yt zt xl yl zl t0
          = super_finalize_axis self key (t ++ evs)) as Hfin.
  { unfold _finalize_axis, mbind, M_bind. by rewrite Hbefore, Hrun. }
  split; [done|].
  intros cs r Hb. rewrite Hfin. unfold super_finalize_axis. rewrite Hb.
  by rewrite <- app_assoc.
Qed.

Lemma own_calls_app (t1 t2 : trace) :
  own_calls (t1 ++ t2) = own_calls t1 ++ own_calls t2.
Proof. apply omap_app. Qed.

Lemma run_hooks_own_calls (self : plot_opts) (view : option frame)
    (hooks : list hook) (t : trace) :
  own_calls (trace_of (run_hooks self view hooks t)) = own_calls t.
Proof.
  revert t. induction hooks as [|h hooks IH]; intros t; [done|].
  cbn. unfold mbind, M_bind, run_hook.
  destruct (hook_call h self view t) as [cs [e|]].
  - destruct (is_Exception e).
    + rewrite IH, !own_calls_app. cbn. by rewrite !app_nil_r.
    + cbn. rewrite own_calls_app. cbn. by rewrite app_nil_r.
  - rewrite IH, own_calls_app. cbn. by rewrite app_nil_r.
Qed.

Lemma super_finalize_axis_own_calls (self : plot_opts) (key : pykey) (t : trace) :
  own_calls (trace_of (super_finalize_axis self key t)) = own_calls t.
Proof.
  unfold super_finalize_axis.
  destruct (base_finalize_axis self key t) as [cs [r|e]]; cbn;
    rewrite own_calls_app; cbn; by rewrite app_nil_r.
Qed.

(** Past the frame selection, [_finalize_axis] adds no call of its own
    when the gate is closed. *)
Lemma hooks_then_super_own_calls (self : plot) (key : pykey)
    (view : option frame) (t : trace) :
  own_calls (trace_of ((run_hooks self view (finalize_hooks self);;
                        super_finalize_axis self key) t))
  = own_calls t.
Proof.
  unfold mbind, M_bind.
  pose proof (run_hooks_own_calls self view (finalize_hooks self) t) as Hh.
  destruct (run_hooks self view (finalize_hooks self) t) as [[] t1|e t1];
    cbn in *; [|done].
  by rewrite super_finalize_axis_own_calls.
Qed.

(** C8: for a renderer whose z-order is above 0 (and likewise for the
    key [None]), all that the code of [_finalize_axis] itself calls on the
    axis is [set_axis_bgcolor] (when a background colour is set): it
    makes no call that changes title, axis labels, grid, legend
    visibility, limits, aspect, scales, ticks or spines, however the call
    ends; those calls sit behind [zorder == 0 and key is not None].  Calls
    made by finalize hooks and by the base class are theirs, not the
    renderer's. *)
Theorem finalize_axis_zorder_gate (self : plot) (key : pykey)
    (title : option string) (ranges : gmap string (coord * coord))
    (xt yt zt : tick_spec) (xl yl zl : option string) (t : trace) :
  (0 < zorder self)%Z ∨ key = KeyAtom VNone →
  let o := _finalize_axis self key title ranges xt yt zt xl yl zl t in
  own_calls (trace_of o) = own_calls t ++ bgcolor_calls self
  ∧ filter (λ c, cosmetic c = true) (own_calls (trace_of o))
    = filter (λ c, cosmetic c = true) (own_calls t).
Proof.
  intros Hz o.
  assert (own_calls (trace_of o) = own_calls t ++ bgcolor_calls self) as Ho.
  { subst o. unfold _finalize_axis, before_hooks.
    assert ((zorder self =? 0)%Z && is_not_None key = false) as ->.
    { destruct Hz as [Hz| ->]; [|by rewrite andb_false_r].
      by rewrite (proj2 (Z.eqb_neq _ _)) by lia. }
    unfold bgcolor_calls. cbn [when].
    unfold mbind at 1. unfold M_bind at 1.
    unfold mbind at 1. unfold M_bind at 1.
    set (bg := match bgcolor self with
               | Some c => when (str_truthy c) (call (set_axis_bgcolor c))
               | None => mret ()
               end).
    assert (∃ t1, bg t = Done () t1
                  ∧ own_calls t1 = own_calls t ++ bgcolor_calls self)
      as (t1 & Hbg & Ht1).
    { subst bg. unfold bgcolor_calls.
      destruct (bgcolor self) as [c|]; [destruct (str_truthy c)|]; run_M;
        eexists; (split; [reflexivity|]);
        rewrite ?own_calls_app; cbn; by rewrite ?app_nil_r. }
    rewrite Hbg. unfold bgcolor_calls in Ht1. rewrite <- Ht1.
    unfold mbind at 1. unfold M_bind at 1. unfold lift.
    destruct (_get_frame self key) as [view|e]; [|done].
    unfold mbind at 1. unfold M_bind at 1. cbn [mret M_ret].
    unfold mret, M_ret.
    apply (hooks_then_super_own_calls self key view t1). }
  split; [done|].
  rewrite Ho, filter_app.
  assert (filter (λ c, cosmetic c = true) (bgcolor_calls self) = []) as ->.
  { unfold bgcolor_calls. destruct (bgcolor self) as [c|]; [|done].
    by destruct (str_truthy c). }
  by rewrite app_nil_r.
Qed.

End Hooks.

(** Two hooks, the first of which raises a [ValueError]: both are run
    with the renderer and the frame, and there is one warning. *)
Lemma finalize_hooks_isolated_witness :
  ∃ evs, @run_hooks (hooked_plot 1) None (finalize_hooks (hooked_plot 1)) []
         = Done () evs
         ∧ hook_runs evs
           = [("<function bad_hook>", opts (hooked_plot 1), None);
              ("<function grid_hook>", opts (hooked_plot 1), None)]
         ∧ warnings evs
           = [hook_warning "<function bad_hook>" (Exn ValueError "bad value")].
Proof.
  destruct (@finalize_hooks_isolated (sample_collaborators sample_select None 1)
              (hooked_plot 1) None [])
    as (evs & Hrun & Hruns & Hw & _).
  - intros h Hin t0 cs e Hcall.
    apply elem_of_cons in Hin as [->|Hin];
      [|apply list_elem_of_singleton in Hin as ->];
      cbn in Hcall; simplify_eq; reflexivity.
  - exists evs. split; [exact Hrun|]. split; [exact Hruns|].
    rewrite Hw. pose proof Hrun as Hc. vm_compute in Hc.
    injection Hc as <-. reflexivity.
Defined.

(** A renderer at z-order 2 with both hooks: no call of its own. *)
Lemma finalize_axis_zorder_gate_witness :
  own_calls (trace_of (@_finalize_axis (sample_collaborators sample_select None 1)
                         (hooked_plot 2) (KeyAtom (VInt 0)) None ∅
                         None None None None None None []))
  = [].
Proof.
  exact (proj1 (@finalize_axis_zorder_gate
                  (sample_collaborators sample_select None 1)
                  (hooked_plot 2) (KeyAtom (VInt 0)) None ∅
                  None None None None None None [] (or_introl eq_refl))).
Defined.

(** The same renderer at z-order 0 does decorate the axis. *)
Example finalize_axis_zorder_0 :
  own_calls (trace_of (@_finalize_axis (sample_collaborators sample_select None 0.5)
                         (hooked_plot 0) (KeyAtom (VInt 0)) None ∅
                         None None None None None None []))
  = [set_lim XAxis (CNum 0) (CNum 1); set_lim YAxis (CNum 0) (CNum 1);
     grid XAxis false; grid YAxis false;
     set_label XAxis "x" []; set_label YAxis "y" [];
     set_aspect_num 2;
     set_ticks_position XAxis "bottom"; set_ticks_position YAxis "left";
     set_major_locator XAxis (MaxNLocator 5);
     ticklabels_set_rotation XAxis 0;
     set_major_locator YAxis (MaxNLocator 5);
     set_title "f0 " []].
Proof. vm_compute. reflexivity. Qed.

(** ** Legend aggregation *)

Lemma handle_eqb_eq (a b : handle) : handle_eqb a b = true ↔ a = b.
Proof.
  destruct a as [i|], b as [j|]; simpl; try (split; [discriminate|done]);
    try done.
  rewrite Nat.eqb_eq. split; [by intros -> | by intros [= ->]].
Qed.

Lemma existsb_handle (h : handle) (hs : list handle) :
  existsb (handle_eqb h) hs = true ↔ h ∈ hs.
Proof.
  rewrite existsb_exists. split.
  - intros (x & Hx & Heq). apply handle_eqb_eq in Heq as ->.
    by apply list_elem_of_In.
  - intros Hin. exists h. split; [by apply list_elem_of_In | by apply handle_eqb_eq].
Qed.

Lemma existsb_handle_false (h : handle) (hs : list handle) :
  existsb (handle_eqb h) hs = false ↔ h ∉ hs.
Proof.
  rewrite <- existsb_handle. by destruct (existsb _ _).
Qed.

Lemma od_set_fresh (h : handle) (l : string) (data : ordered_dict) :
  od_mem h data = false → od_set h l data = data ++ [(h, l)].
Proof.
  unfold od_mem. induction data as [|[h' l'] data IH]; simpl; [done|].
  intros Hm. apply orb_false_iff in Hm as [Hh Hm].
  assert (handle_eqb h' h = false) as ->.
  { destruct (handle_eqb h' h) eqn:E; [|done].
    apply handle_eqb_eq in E as ->.
    by rewrite (proj2 (handle_eqb_eq h h) eq_refl) in Hh. }
  by rewrite IH.
Qed.

(** The loop computes the specification's aggregation of the entries
    that count, after whatever is in the dictionary already. *)
Lemma legend_loop_dedup (entries : list (handle * string)) (data : ordered_dict) :
  fold_left legend_step entries data
  = data ++ dedup_first data.*1 (filter (λ hl, valid_entry hl = true) entries).
Proof.
  revert data. induction entries as [|[h l] entries IH]; intros data; simpl.
  - by rewrite app_nil_r.
  - rewrite IH. unfold legend_step, valid_entry. simpl.
    destruct (handle_truthy h) eqn:Hh; simpl.
    + destruct (str_truthy l) eqn:Hl; simpl.
      * rewrite filter_cons_True by (simpl; by rewrite Hh, Hl).
        simpl. unfold od_mem.
        destruct (existsb (handle_eqb h) data.*1) eqn:Hm; simpl; [done|].
        rewrite od_set_fresh by done.
        by rewrite fmap_app, <- app_assoc.
      * rewrite andb_false_r.
        by rewrite filter_cons_False by (simpl; by rewrite Hh, Hl).
    + by rewrite filter_cons_False by (simpl; by rewrite Hh).
Qed.

Lemma zip_all_entries (legend_data : list (handle * string))
    (autohandles : list handle) (autolabels : list string) :
  zip (legend_data.*1 ++ autohandles) (legend_data.*2 ++ autolabels)
  = legend_data ++ zip autohandles autolabels.
Proof.
  rewrite zip_with_app by (by rewrite !length_fmap).
  by rewrite zip_fst_snd.
Qed.

Lemma dedup_first_keys (seen : list handle) (entries : list (handle * string)) :
  NoDup (dedup_first seen entries).*1
  ∧ (∀ h, h ∈ (dedup_first seen entries).*1 → h ∉ seen)
  ∧ dedup_first seen entries `sublist_of` entries
  ∧ (∀ h, h ∈ entries.*1 → h ∈ seen ∨ h ∈ (dedup_first seen entries).*1)
  ∧ (∀ pre h l post, entries = pre ++ (h, l) :: post → h ∉ pre.*1 → h ∉ seen →
       (h, l) ∈ dedup_first seen entries).
Proof.
  revert seen. induction entries as [|[h l] entries IH]; intros seen; simpl.
  - split; [constructor|]. split; [intros h Hh; by apply elem_of_nil in Hh|].
    split; [constructor|]. split; [intros h Hh; by apply elem_of_nil in Hh|].
    intros pre h l post Hp. by destruct pre.
  - destruct (existsb (handle_eqb h) seen) eqn:Hm.
    + apply existsb_handle in Hm.
      destruct (IH seen) as (Hnd & Hns & Hsub & Hcov & Hfirst).
      split; [done|]. split; [done|]. split; [by apply sublist_cons|]. split.
      * intros h' Hh'. apply elem_of_cons in Hh' as [->|Hh']; [by left | by apply Hcov].
      * intros pre h' l' post Hp Hpre Hseen.
        destruct pre as [|[h0 l0] pre]; simpl in *; simplify_eq; [done|].
        apply (Hfirst pre h' l' post eq_refl); [|done].
        intros Hin. apply Hpre, elem_of_cons. by right.
    + apply existsb_handle_false in Hm.
      destruct (IH (seen ++ [h])) as (Hnd & Hns & Hsub & Hcov & Hfirst).
      split; [|split; [|split; [|split]]].
      * simpl. constructor; [|done]. intros Hin. apply Hns in Hin.
        apply Hin, elem_of_app. right. by apply list_elem_of_singleton.
      * simpl. intros h' Hh'. apply elem_of_cons in Hh' as [->|Hh']; [done|].
        apply Hns in Hh'. intros Hin. apply Hh', elem_of_app. by left.
      * by apply sublist_skip.
      * simpl. intros h' Hh'. apply elem_of_cons in Hh' as [->|Hh'].
        { right. apply elem_of_cons. by left. }
        destruct (Hcov h' Hh') as [Hs|Hd]; [|right; apply elem_of_cons; by right].
        apply elem_of_app in Hs as [Hs|Hs]; [by left|].
        apply list_elem_of_singleton in Hs as ->. right. apply elem_of_cons. by left.
      * intros pre h' l' post Hp Hpre Hseen.
        destruct pre as [|[h0 l0] pre]; simpl in *; simplify_eq.
        { apply elem_of_cons. by left. }
        apply elem_of_cons. right.
        apply (Hfirst pre h' l' post eq_refl).
        { intros Hin. apply Hpre, elem_of_cons. by right. }
        intros Hin. apply elem_of_app in Hin as [Hin|Hin]; [done|].
        apply list_elem_of_singleton in Hin as ->. apply Hpre, elem_of_cons. by left.
Qed.

(** C6: the aggregated legend is the deduplication, by handle, of the
    explicit subplot entries followed by the auto-discovered entries of
    the axis (an entry counting when its handle is truthy and its label
    not empty): no handle twice, nothing but entries of the input and in
    their order, every handle of the input present, and each handle with
    the label of its first entry.  The entries [(h1,A), (h2,B), (h1,A)]
    aggregate to [(h1,A), (h2,B)]. *)
Theorem aggregate_legend_dedup (legend_data : list (handle * string))
    (autohandles : list handle) (autolabels : list string) :
  let entries := filter (λ hl, valid_entry hl = true)
                   (legend_data ++ zip autohandles autolabels) in
  let data := aggregate_legend legend_data autohandles autolabels in
  data = dedup_first [] entries
  ∧ NoDup data.*1
  ∧ data `sublist_of` entries
  ∧ (∀ h, h ∈ data.*1 ↔ h ∈ entries.*1)
  ∧ (∀ pre h l post, entries = pre ++ (h, l) :: post → h ∉ pre.*1 →
       (h, l) ∈ data)
  ∧ aggregate_legend [(Artist 1, "A"); (Artist 2, "B"); (Artist 1, "A")] [] []
    = [(Artist 1, "A"); (Artist 2, "B")].
Proof.
  intros entries data.
  assert (data = dedup_first [] entries) as Hd.
  { subst data entries. unfold aggregate_legend.
    destruct legend_data as [|hl legend_data].
    - simpl. by rewrite legend_loop_dedup.
    - cbn [fst snd]. by rewrite zip_all_entries, legend_loop_dedup. }
  destruct (dedup_first_keys [] entries) as (Hnd & _ & Hsub & Hcov & Hfirst).
  rewrite Hd. split; [done|]. split; [done|]. split; [done|].
  split; [|split; [|done]].
  - intros h. split.
    + intros Hin. eapply elem_of_sublist; [done|]. by apply fmap_sublist.
    + intros Hin. destruct (Hcov h Hin) as [Hs|]; [|done].
      by apply elem_of_nil in Hs.
  - intros pre h l post Hp Hpre. apply (Hfirst pre h l post Hp Hpre).
    apply not_elem_of_nil.
Qed.

(** What [_adjust_legend] stores as [handles['legend_data']] is the
    aggregation of the collected entries with the entries the axis
    reports at the time of the call. *)
Lemma adjust_legend_data `{Collaborators} (self : plot_opts)
    (legend_position title : string) (legend_data : list (handle * string))
    (t t' : trace) (data : ordered_dict) :
  _adjust_legend self legend_position title legend_data t = Done data t' →
  data = aggregate_legend legend_data (get_legend_handles_labels t).1
           (get_legend_handles_labels t).2.
Proof.
  unfold _adjust_legend. run_M.
  destruct (get_legend_handles_labels t) as [autohandles autolabels]. cbn.
  destruct (negb _ || negb _).
  - destruct (get_legend t); cbn; by intros [= <- _].
  - destruct (legend_specs legend_position); cbn; [by intros [= <- _] | done].
Qed.
